(** * X-ray fluorescence schema: the entity builder, the merge and the
      normalize entry point of [nomad_ubik_plugin.schema_packages.XRFschema]

    The development embeds [ELNXRayFluorescence.get_read_function],
    [ELNXRayFluorescence.write_xrf_data], [ELNXRayFluorescence.normalize] and
    [XRayFluorescence.normalize] as Rocq functions and proves the properties
    the specification states about them.

    Python values are modelled as the code uses them: a [dict] is an
    insertion-ordered association list, a missing key is [None], a float
    is a binary64 primitive float, an exception is a value of [Exception]
    returned through [result].  The host framework (NOMAD's metainfo, the
    file reader, the logger) is a collaborator: a type class [Host] gathers
    the calls the schema makes into it. *)

From Stdlib Require Import String Ascii List Bool Arith Lia Permutation.
From Stdlib Require Import Floats.PrimFloat.
Import ListNotations.

Local Open Scope string_scope.
Local Open Scope list_scope.

(* ================================================================== *)
(** ** Python layer *)
(* ================================================================== *)

(** An exception object: its class name and its message. *)
Record Exception : Type := mkException {
  exc_class : string;
  exc_message : string
}.

Definition AttributeError (msg : string) : Exception :=
  mkException "AttributeError" msg.

(** The outcome of a call: a value, or a raised exception. *)
Inductive result (A : Type) : Type :=
| Ok (a : A)
| Raise (e : Exception).

Arguments Ok {A} a.
Arguments Raise {A} e.

Definition result_bind {A B : Type} (r : result A) (k : A -> result B)
  : result B :=
  match r with
  | Ok a => k a
  | Raise e => Raise e
  end.

(** A [dict] with string keys keeps its insertion order. *)
Definition dict (V : Type) : Type := list (string * V).

Definition dict_values {V : Type} (d : dict V) : list V := map snd d.

Definition dict_items {V : Type} (d : dict V) : list (string * V) := d.

(** [d.get(key, default)] when the stored value is optional:
    the value if the key is there, [default] otherwise. *)
Definition get_or {A : Type} (field : option A) (default : A) : A :=
  match field with
  | Some v => v
  | None => default
  end.

(** The two kinds of object that [data.get('layers', [])] evaluates to:
    the mapping stored under the key, or the list given as default. *)
Inductive PyContainer (V : Type) : Type :=
| PyDict (d : dict V)
| PyList (l : list V).

Arguments PyDict {V} d.
Arguments PyList {V} l.

(** What [[].items()] raises. *)
Definition list_has_no_items : Exception :=
  AttributeError "'list' object has no attribute 'items'".

(** [obj.items()]: defined on a dict; a list has no such attribute. *)
Definition py_items {V : Type} (obj : PyContainer V)
  : result (list (string * V)) :=
  match obj with
  | PyDict d => Ok (dict_items d)
  | PyList _ => Raise list_has_no_items
  end.

(** [s.endswith(suffix)]. *)
Definition endswith (s suffix : string) : bool :=
  Nat.leb (String.length suffix) (String.length s)
  && String.eqb
       (substring (String.length s - String.length suffix)
                  (String.length suffix) s)
       suffix.

(** [x in l] under an equality test. *)
Definition py_in {A : Type} (eqb : A -> A -> bool) (x : A) (l : list A) : bool :=
  existsb (fun y => eqb y x) l.

(** Truthiness of what a reader returns: [None] and the empty dict are falsy. *)
Definition truthy {V : Type} (o : option (dict V)) : bool :=
  match o with
  | Some (_ :: _) => true
  | _ => false
  end.

(** The double-quote character, as the f-strings of [normalize] print it. *)
Definition dquote : string := String "034"%char EmptyString.

(** Timestamps are passed through as the reader hands them over; the
    parsing the framework applies when it stores one is outside the model. *)
Definition Datetime : Type := string.

(* ================================================================== *)
(** ** The raw mapping a reader returns *)
(* ================================================================== *)

Module Raw.

(** The attributes of one element: every key may be missing. *)
Record Element : Type := mkElement {
  mass_fraction : option float;
  atomic_fraction : option float;
  line : option string;
  intensity_peak : option float;
  intensity_background : option float;
  intensity_background_2 : option float
}.

Record Layer : Type := mkLayer {
  thickness : option float;
  elements : option (dict Element)
}.

Record Entry : Type := mkEntry {
  application : option string;
  date : option Datetime;
  sample_name : option string;
  layers : option (dict Layer)
}.

End Raw.

(* ================================================================== *)
(** ** The sections of the schema *)
(* ================================================================== *)

Module XRFElementalComposition.
Record t : Type := new {
  element : option string;
  mass_fraction : option float;
  atomic_fraction : option float;
  line : option string;
  intensity_peak : option float;
  intensity_background : option float;
  intensity_background_2 : option float
}.
End XRFElementalComposition.

Module XRFLayer.
Record t : Type := new {
  name : option string;
  thickness : option float;
  elements : list XRFElementalComposition.t
}.
End XRFLayer.

Module XRFResult.
Record t : Type := new {
  name : option string;
  date : option Datetime;
  layer : list XRFLayer.t
}.
End XRFResult.

Module XRFSettings.
Record t : Type := mk {
  xray_energy : option float;
  current : option float;
  spot_size : option float;
  integration_time : option float;
  element_line : option string
}.

(** [XRFSettings()]: no quantity is set. *)
Definition new : t := mk None None None None None.
End XRFSettings.

(** [CompositeSystemReference] of the host framework: the identity of the
    Python object, the identifier the schema sets, and the two quantities
    the framework derives from it. *)
Module CompositeSystemReference.
Record t : Type := mk {
  oid : nat;
  lab_id : option string;
  name : option string;
  reference : option string
}.

(** An identity that none of the live objects has. *)
Definition fresh (live : list t) : nat := S (list_max (map oid live)).

(** [CompositeSystemReference(lab_id=...)]: a new object, which is none of
    the objects of [live]. *)
Definition new (live : list t) (lab_id : option string) : t :=
  mk (fresh live) lab_id None None.

(** [a == b] on sections of the host framework is the default of Python
    objects, the identity of the two objects: two references built by two
    constructor calls are not equal, whatever their [lab_id]. *)
Definition eqb (a b : t) : bool := Nat.eqb (oid a) (oid b).
End CompositeSystemReference.

Module ReadableIdentifiers.
Record t : Type := mk {
  institute : option string;
  short_name : option string
}.
End ReadableIdentifiers.

(** [ELNXRayFluorescence]: the quantities and sub-sections the schema
    declares or fills.  A quantity that was never set is [None] (for
    [method] it then reads as its default), a repeating sub-section that
    was never filled is the empty list. *)
Module ELNXRayFluorescence.
Record t : Type := mk {
  method : option string;
  xrf_settings : option XRFSettings.t;
  results : list XRFResult.t;
  samples : list CompositeSystemReference.t;
  data_file : option string;
  measurement_identifiers : option ReadableIdentifiers.t
}.

Definition method_default : string := "X-Ray Fluorescence (XRF)".

Definition get_method (s : t) : string := get_or (method s) method_default.

(** [ELNXRayFluorescence(results=..., xrf_settings=..., samples=...)]. *)
Definition new (results : list XRFResult.t) (xrf_settings : XRFSettings.t)
           (samples : list CompositeSystemReference.t) : t :=
  mk None (Some xrf_settings) results samples None None.

Definition empty : t := mk None None [] [] None None.
End ELNXRayFluorescence.

Module Properties.
Inductive t : Type := new.
End Properties.

Module Results.
Record t : Type := mk { properties : option Properties.t }.
Definition new : t := mk None.
End Results.

Module EntryArchive.
Record t : Type := mk { results : option Results.t }.
End EntryArchive.

(** A logger is an opaque sink; [None] is an absent logger. *)
Inductive BoundLogger : Type := bound_logger.

(** The readers [get_read_function] can return. *)
Inductive Callable : Type := read_xrf_txt.


(* ================================================================== *)
(** ** The host framework *)
(* ================================================================== *)

(** The calls the schema makes into code that is not its own.  The
    [normalize] hooks of the framework's sections receive the archive and
    the logger and return the section as they leave it; the reader receives
    the name of the opened raw file and the logger, and may raise.  What
    the hooks themselves send to the logger, and exceptions they may raise,
    are outside the model: the trace of a call holds the events of the
    schema's own code only. *)
Class Host : Type := {
  XRFResult_normalize :
    XRFResult.t -> EntryArchive.t -> option BoundLogger -> XRFResult.t;
  CompositeSystemReference_normalize :
    CompositeSystemReference.t -> EntryArchive.t -> option BoundLogger ->
    CompositeSystemReference.t;
  XRFSettings_normalize :
    XRFSettings.t -> EntryArchive.t -> option BoundLogger -> XRFSettings.t;
  (** [Measurement.normalize], the superclass of [XRayFluorescence] *)
  Measurement_normalize :
    ELNXRayFluorescence.t -> EntryArchive.t -> option BoundLogger ->
    ELNXRayFluorescence.t * EntryArchive.t;
  (** [archive.m_context.raw_file(path)] yields a file; this is its [name] *)
  raw_file_name : EntryArchive.t -> string -> string;
  (** [XRFreader.read_xrf_txt] *)
  XRFreader_read_xrf_txt :
    string -> option BoundLogger -> result (option (dict Raw.Entry))
}.

(** What a call leaves behind outside the record and the archive. *)
Inductive Event : Type :=
| LogWarn (msg : string)
| RawFileEnter (path : string)
| RawFileExit (path : string)
| MeasurementNormalize.

(** The objects a call of [normalize] works on: the record itself, the
    archive, and the trace of the calls made to the logger, the file
    context and the superclass. *)
Record World : Type := mkWorld {
  self : ELNXRayFluorescence.t;
  archive : EntryArchive.t;
  trace : list Event
}.

(** A method body: it transforms the world and returns or raises; what it
    mutated before raising stays mutated. *)
Definition M (A : Type) : Type := World -> result A * World.

Definition ret {A : Type} (a : A) : M A := fun w => (Ok a, w).

Definition bind {A B : Type} (m : M A) (k : A -> M B) : M B :=
  fun w =>
    match m w with
    | (Ok a, w') => k a w'
    | (Raise e, w') => (Raise e, w')
    end.

Notation "x <- m ;; k" := (bind m (fun x => k))
  (at level 61, m at next level, right associativity).
Notation "m ;;; k" := (bind m (fun _ => k))
  (at level 61, right associativity).
Notation "'let?' x ':=' r 'in' k" := (result_bind r (fun x => k))
  (at level 61, x pattern, r at next level, right associativity).

Definition lift {A : Type} (r : result A) : M A := fun w => (r, w).

Definition get_self : M ELNXRayFluorescence.t := fun w => (Ok (self w), w).

Definition get_archive : M EntryArchive.t := fun w => (Ok (archive w), w).

Definition set_self (s : ELNXRayFluorescence.t) : M unit :=
  fun w => (Ok tt, mkWorld s (archive w) (trace w)).

Definition set_archive (a : EntryArchive.t) : M unit :=
  fun w => (Ok tt, mkWorld (self w) a (trace w)).

Definition emit (e : Event) : M unit :=
  fun w => (Ok tt, mkWorld (self w) (archive w) (trace w ++ [e])).

(** [if logger is not None: logger.warn(msg)]. *)
Definition warn_if_logger (logger : option BoundLogger) (msg : string) : M unit :=
  match logger with
  | Some _ => emit (LogWarn msg)
  | None => ret tt
  end.

(** [with archive.m_context.raw_file(path) as file: body(file.name)]:
    the file is released whether the body returns or raises, and an
    exception of the body goes on to the caller. *)
Definition with_raw_file {A : Type} {H : Host} (path : string)
           (body : string -> M A) : M A :=
  fun w =>
    let (_, w1) := emit (RawFileEnter path) w in
    let (r, w2) := body (raw_file_name (archive w1) path) w1 in
    let (_, w3) := emit (RawFileExit path) w2 in
    (r, w3).

(** [for x in l: state = body(state, x)], stopping at the first exception. *)
Fixpoint for_each {A S : Type} (body : S -> A -> result S) (l : list A)
         (s : S) : result S :=
  match l with
  | [] => Ok s
  | x :: l' => let? s' := body s x in for_each body l' s'
  end.

(** [for x in l: acc.append(f(x))] for a body that cannot raise. *)
Definition append_each {A B : Type} (f : A -> B) (l : list A) : list B :=
  fold_left (fun acc x => acc ++ [f x]) l [].

(* ================================================================== *)
(** ** The merge *)
(* ================================================================== *)

(** Modelled from the spec: [merge_sections] is imported from
    [nomad_measurements.utils], which is not part of the sources.  The
    specification gives its rule for one field: a value the current record
    already has is kept, otherwise the value of the derived record is
    written.  A quantity is empty when it is unset ([None]).  The library
    does the same on every quantity of a section. *)
Definition merge_quantity {A : Type} (current derived : option A) : option A :=
  match current with
  | Some v => Some v
  | None => derived
  end.

(** [merge_sections] on a sub-section that does not repeat
    ([xrf_settings], [measurement_identifiers]): the library counts the
    sub-sections on both sides; with none on the current record the derived
    one is added, with one on each side the two are merged by the same
    function, and with none on the derived record nothing happens. *)
Definition merge_sub_section {A : Type} (merge : A -> A -> A)
           (current derived : option A) : option A :=
  match current, derived with
  | None, _ => derived
  | Some c, Some d => Some (merge c d)
  | Some c, None => Some c
  end.

(** The i-th section of the current list merged with the i-th of the
    derived list. *)
Fixpoint merge_pairwise {A : Type} (merge : A -> A -> A)
         (current derived : list A) : list A :=
  match current, derived with
  | c :: cs, d :: ds => merge c d :: merge_pairwise merge cs ds
  | _, _ => []
  end.

(** [merge_sections] on a repeating sub-section ([results], [samples],
    [layer], [elements]): with none on the current record the derived
    sections are added as they are; with the same number on both sides the
    sections are merged pair by pair; with different numbers the current
    sections stay as they are (the library then only warns). *)
Definition merge_sub_sections {A : Type} (merge : A -> A -> A)
           (current derived : list A) : list A :=
  match current with
  | [] => derived
  | _ :: _ =>
      if Nat.eqb (List.length current) (List.length derived)
      then merge_pairwise merge current derived
      else current
  end.

Definition merge_XRFSettings (current derived : XRFSettings.t) : XRFSettings.t :=
  XRFSettings.mk
    (merge_quantity (XRFSettings.xray_energy current)
                    (XRFSettings.xray_energy derived))
    (merge_quantity (XRFSettings.current current)
                    (XRFSettings.current derived))
    (merge_quantity (XRFSettings.spot_size current)
                    (XRFSettings.spot_size derived))
    (merge_quantity (XRFSettings.integration_time current)
                    (XRFSettings.integration_time derived))
    (merge_quantity (XRFSettings.element_line current)
                    (XRFSettings.element_line derived)).

Definition merge_ReadableIdentifiers (current derived : ReadableIdentifiers.t)
  : ReadableIdentifiers.t :=
  ReadableIdentifiers.mk
    (merge_quantity (ReadableIdentifiers.institute current)
                    (ReadableIdentifiers.institute derived))
    (merge_quantity (ReadableIdentifiers.short_name current)
                    (ReadableIdentifiers.short_name derived)).

(** The merge mutates the current object: its identity stays. *)
Definition merge_CompositeSystemReference
           (current derived : CompositeSystemReference.t)
  : CompositeSystemReference.t :=
  CompositeSystemReference.mk
    (CompositeSystemReference.oid current)
    (merge_quantity (CompositeSystemReference.lab_id current)
                    (CompositeSystemReference.lab_id derived))
    (merge_quantity (CompositeSystemReference.name current)
                    (CompositeSystemReference.name derived))
    (merge_quantity (CompositeSystemReference.reference current)
                    (CompositeSystemReference.reference derived)).

Definition merge_XRFElementalComposition
           (current derived : XRFElementalComposition.t)
  : XRFElementalComposition.t :=
  XRFElementalComposition.new
    (merge_quantity (XRFElementalComposition.element current)
                    (XRFElementalComposition.element derived))
    (merge_quantity (XRFElementalComposition.mass_fraction current)
                    (XRFElementalComposition.mass_fraction derived))
    (merge_quantity (XRFElementalComposition.atomic_fraction current)
                    (XRFElementalComposition.atomic_fraction derived))
    (merge_quantity (XRFElementalComposition.line current)
                    (XRFElementalComposition.line derived))
    (merge_quantity (XRFElementalComposition.intensity_peak current)
                    (XRFElementalComposition.intensity_peak derived))
    (merge_quantity (XRFElementalComposition.intensity_background current)
                    (XRFElementalComposition.intensity_background derived))
    (merge_quantity (XRFElementalComposition.intensity_background_2 current)
                    (XRFElementalComposition.intensity_background_2 derived)).

Definition merge_XRFLayer (current derived : XRFLayer.t) : XRFLayer.t :=
  XRFLayer.new
    (merge_quantity (XRFLayer.name current) (XRFLayer.name derived))
    (merge_quantity (XRFLayer.thickness current) (XRFLayer.thickness derived))
    (merge_sub_sections merge_XRFElementalComposition
                        (XRFLayer.elements current)
                        (XRFLayer.elements derived)).

Definition merge_XRFResult (current derived : XRFResult.t) : XRFResult.t :=
  XRFResult.new
    (merge_quantity (XRFResult.name current) (XRFResult.name derived))
    (merge_quantity (XRFResult.date current) (XRFResult.date derived))
    (merge_sub_sections merge_XRFLayer
                        (XRFResult.layer current) (XRFResult.layer derived)).

(** [merge_sections(current, derived, logger)] of
    [nomad_measurements.utils], a library outside the sources, on two
    records of the schema: first the quantities, each kept where the
    current record has it set and written from the derived record where it
    has not; then the sub-sections, by their number on both sides, going
    into the sections where the numbers agree.  The warnings the library
    sends to the logger where values or numbers differ are not part of the
    model. *)
Definition merge_sections (current derived : ELNXRayFluorescence.t)
  : ELNXRayFluorescence.t :=
  ELNXRayFluorescence.mk
    (merge_quantity (ELNXRayFluorescence.method current)
                    (ELNXRayFluorescence.method derived))
    (merge_sub_section merge_XRFSettings
                       (ELNXRayFluorescence.xrf_settings current)
                       (ELNXRayFluorescence.xrf_settings derived))
    (merge_sub_sections merge_XRFResult
                        (ELNXRayFluorescence.results current)
                        (ELNXRayFluorescence.results derived))
    (merge_sub_sections merge_CompositeSystemReference
                        (ELNXRayFluorescence.samples current)
                        (ELNXRayFluorescence.samples derived))
    (merge_quantity (ELNXRayFluorescence.data_file current)
                    (ELNXRayFluorescence.data_file derived))
    (merge_sub_section merge_ReadableIdentifiers
                       (ELNXRayFluorescence.measurement_identifiers current)
                       (ELNXRayFluorescence.measurement_identifiers derived)).

(* ================================================================== *)
(** ** [ELNXRayFluorescence] and [XRayFluorescence]: the methods *)
(* ================================================================== *)

(** [ELNXRayFluorescence.get_read_function]: the body falls off its end,
    and so returns [None], when the suffix test fails. *)
Definition get_read_function (self : ELNXRayFluorescence.t)
  : result (option Callable) :=
  match ELNXRayFluorescence.data_file self with
  | None =>
      Raise (AttributeError "'NoneType' object has no attribute 'endswith'")
  | Some data_file =>
      if endswith data_file ".txt" then Ok (Some read_xrf_txt) else Ok None
  end.

(** Calling what [get_read_function] returned. *)
Definition call_reader {H : Host} (f : Callable) (file_name : string)
           (logger : option BoundLogger)
  : result (option (dict Raw.Entry)) :=
  match f with
  | read_xrf_txt => XRFreader_read_xrf_txt file_name logger
  end.

(** One [XRFElementalComposition(...)] of the innermost loop.  The check
    of the symbol against the framework's enumeration of elements is the
    constructor's and is outside the model: symbols are taken from that
    vocabulary. *)
Definition build_element (item : string * Raw.Element)
  : XRFElementalComposition.t :=
  let (element, attributes) := item in
  XRFElementalComposition.new
    (Some element)
    (Raw.mass_fraction attributes)
    (Raw.atomic_fraction attributes)
    (Raw.line attributes)
    (Raw.intensity_peak attributes)
    (Raw.intensity_background attributes)
    (Raw.intensity_background_2 attributes).

(** The loop over [content.get('elements', {}).items()]. *)
Definition build_elements (content : Raw.Layer)
  : list XRFElementalComposition.t :=
  append_each build_element (dict_items (get_or (Raw.elements content) [])).

(** One [XRFLayer(...)] of the loop over the layers. *)
Definition build_layer (item : string * Raw.Layer) : XRFLayer.t :=
  let (layer, content) := item in
  XRFLayer.new (Some layer) (Raw.thickness content) (build_elements content).

(** The loop over [data.get('layers', []).items()]. *)
Definition build_layers (data : Raw.Entry) : result (list XRFLayer.t) :=
  let? items :=
    py_items (get_or (option_map PyDict (Raw.layers data)) (PyList [])) in
  Ok (append_each build_layer items).

(** The body of the loop over [xrf_dict.values()]; the state is the pair
    [(list_of_results, list_of_samples)]. *)
Definition write_step {H : Host} (archive : EntryArchive.t)
           (logger : option BoundLogger)
           (state : list XRFResult.t * list CompositeSystemReference.t)
           (data : Raw.Entry)
  : result (list XRFResult.t * list CompositeSystemReference.t) :=
  let (list_of_results, list_of_samples) := state in
  let name := Raw.application data in
  let date := Raw.date data in
  let? list_of_XRFLayers := build_layers data in
  let sample :=
    CompositeSystemReference.new list_of_samples (Raw.sample_name data) in
  let list_of_samples :=
    if negb (py_in CompositeSystemReference.eqb sample list_of_samples)
    then list_of_samples
           ++ [CompositeSystemReference_normalize sample archive logger]
    else list_of_samples in
  let result :=
    XRFResult_normalize (XRFResult.new name date list_of_XRFLayers)
                        archive logger in
  Ok (list_of_results ++ [result], list_of_samples).

(** Lines 271 to 320: the two lists as the loop leaves them. *)
Definition build_lists {H : Host} (xrf_dict : dict Raw.Entry)
           (archive : EntryArchive.t) (logger : option BoundLogger)
  : result (list XRFResult.t * list CompositeSystemReference.t) :=
  for_each (write_step archive logger) (dict_values xrf_dict) ([], []).

(** Lines 322 to 329: the settings and the derived record. *)
Definition derived_record {H : Host}
           (lists : list XRFResult.t * list CompositeSystemReference.t)
           (archive : EntryArchive.t) (logger : option BoundLogger)
  : ELNXRayFluorescence.t :=
  let (list_of_results, list_of_samples) := lists in
  let xrf_settings := XRFSettings_normalize XRFSettings.new archive logger in
  ELNXRayFluorescence.new list_of_results xrf_settings list_of_samples.

(** [ELNXRayFluorescence.write_xrf_data]. *)
Definition write_xrf_data {H : Host} (xrf_dict : dict Raw.Entry)
           (logger : option BoundLogger) : M unit :=
  archive <- get_archive ;;
  lists <- lift (build_lists xrf_dict archive logger) ;;
  self <- get_self ;;
  set_self (merge_sections self (derived_record lists archive logger)).

(** [XRayFluorescence.normalize]. *)
Definition XRayFluorescence_normalize {H : Host} (logger : option BoundLogger)
  : M unit :=
  archive <- get_archive ;;
  (match EntryArchive.results archive with
   | None => set_archive (EntryArchive.mk (Some Results.new))
   | Some _ => ret tt
   end) ;;;
  archive <- get_archive ;;
  (match EntryArchive.results archive with
   | Some (Results.mk None) =>
       set_archive (EntryArchive.mk (Some (Results.mk (Some Properties.new))))
   | _ => ret tt
   end) ;;;
  self <- get_self ;;
  archive <- get_archive ;;
  emit MeasurementNormalize ;;;
  let (self', archive') := Measurement_normalize self archive logger in
  set_self self' ;;;
  set_archive archive'.

Definition no_reader_message (data_file : string) : string :=
  "No compatible reader found for the file: " ++ dquote ++ data_file
    ++ dquote ++ ".".

Definition no_data_message (data_file : string) : string :=
  "No XRF data found in file: " ++ dquote ++ data_file ++ dquote ++ ".".

(** [ELNXRayFluorescence.normalize]. *)
Definition normalize {H : Host} (logger : option BoundLogger) : M unit :=
  self <- get_self ;;
  (match ELNXRayFluorescence.data_file self with
   | Some data_file =>
       read_function <- lift (get_read_function self) ;;
       match read_function with
       | None => warn_if_logger logger (no_reader_message data_file)
       | Some read_function =>
           xrf_dict <- with_raw_file data_file
                         (fun name => lift (call_reader read_function name logger)) ;;
           if truthy xrf_dict
           then write_xrf_data (get_or xrf_dict []) logger
           else warn_if_logger logger (no_data_message data_file)
       end
   | None => ret tt
   end) ;;;
  XRayFluorescence_normalize logger ;;;
  self <- get_self ;;
  match ELNXRayFluorescence.results self with
  | [] => ret tt
  | _ :: _ => ret tt
  end.

(* ================================================================== *)
(** ** Vocabulary of the specification *)
(* ================================================================== *)

(** The entry carries a ['layers'] mapping. *)
Definition has_layers (data : Raw.Entry) : bool :=
  match Raw.layers data with
  | Some _ => true
  | None => false
  end.

Definition all_have_layers (xrf_dict : dict Raw.Entry) : bool :=
  forallb has_layers (dict_values xrf_dict).

(** The [sample_name] of every entry, in iteration order; [None] where the
    key is missing. *)
Definition sample_names (xrf_dict : dict Raw.Entry) : list (option string) :=
  map Raw.sample_name (dict_values xrf_dict).

Definition option_string_dec (a b : option string) : {a = b} + {a <> b}.
Proof. decide equality. apply string_dec. Defined.

(** How many distinct values a list holds. *)
Definition count_distinct (l : list (option string)) : nat :=
  List.length (nodup option_string_dec l).

(** The result the loop builds from one entry that has its layers. *)
Definition result_of {H : Host} (archive : EntryArchive.t)
           (logger : option BoundLogger) (data : Raw.Entry) : XRFResult.t :=
  XRFResult_normalize
    (XRFResult.new (Raw.application data) (Raw.date data)
                   (map build_layer (get_or (Raw.layers data) [])))
    archive logger.

(** The sample list after one more entry. *)
Definition add_sample {H : Host} (archive : EntryArchive.t)
           (logger : option BoundLogger)
           (list_of_samples : list CompositeSystemReference.t)
           (data : Raw.Entry) : list CompositeSystemReference.t :=
  let sample :=
    CompositeSystemReference.new list_of_samples (Raw.sample_name data) in
  if negb (py_in CompositeSystemReference.eqb sample list_of_samples)
  then list_of_samples ++ [CompositeSystemReference_normalize sample archive logger]
  else list_of_samples.



(** The events a warning leaves, with and without a logger. *)
Definition warning_events (logger : option BoundLogger) (msg : string)
  : list Event :=
  match logger with
  | Some _ => [LogWarn msg]
  | None => []
  end.

Definition add_events (w : World) (events : list Event) : World :=
  mkWorld (self w) (archive w) (trace w ++ events).

(** A warning is among the events. *)
Definition has_warning (events : list Event) : bool :=
  existsb (fun e => match e with LogWarn _ => true | _ => false end) events.

(** The superclass normalization is among the events. *)
Definition ran_baseline (events : list Event) : bool :=
  existsb (fun e => match e with MeasurementNormalize => true | _ => false end)
          events.

(** The two ways a record with a data file ends up unparsed without an
    exception: no reader for the suffix, or a reader that returns nothing. *)
Definition unparsed {H : Host} (w : World) (data_file : string)
           (logger : option BoundLogger) : Prop :=
  get_read_function (self w) = Ok None
  \/ exists read_function xrf_dict,
       get_read_function (self w) = Ok (Some read_function)
       /\ call_reader read_function (raw_file_name (archive w) data_file) logger
          = Ok xrf_dict
       /\ truthy xrf_dict = false.

(** The events of the parsing phase of an unparsed record. *)
Definition unparsed_events (self : ELNXRayFluorescence.t) (data_file : string)
           (logger : option BoundLogger) : list Event :=
  match get_read_function self with
  | Ok (Some _) =>
      [RawFileEnter data_file; RawFileExit data_file]
        ++ warning_events logger (no_data_message data_file)
  | _ => warning_events logger (no_reader_message data_file)
  end.

(** The raw files a run of events opened, in order. *)
Definition opened (events : list Event) : list string :=
  flat_map (fun e => match e with RawFileEnter p => [p] | _ => [] end) events.

(** The raw files a run of events released, in order. *)
Definition released (events : list Event) : list string :=
  flat_map (fun e => match e with RawFileExit p => [p] | _ => [] end) events.

(** How often a run of events called the superclass normalization. *)
Definition baseline_calls (events : list Event) : nat :=
  List.length
    (filter (fun e => match e with MeasurementNormalize => true | _ => false end)
            events).











(* ================================================================== *)
(** ** Sample hosts and inputs *)
(* ================================================================== *)

(** A host whose reader has a fixed outcome: the hooks of results and
    settings leave the section as it is, the hook of a sample reference
    copies the identifier into the name, the superclass leaves record and
    archive as they are. *)
Definition fixed_host (outcome : result (option (dict Raw.Entry))) : Host := {|
  XRFResult_normalize := fun r _ _ => r;
  CompositeSystemReference_normalize := fun s _ _ =>
    CompositeSystemReference.mk
      (CompositeSystemReference.oid s)
      (CompositeSystemReference.lab_id s)
      (CompositeSystemReference.lab_id s)
      (CompositeSystemReference.reference s);
  XRFSettings_normalize := fun s _ _ => s;
  Measurement_normalize := fun s a _ => (s, a);
  raw_file_name := fun _ path => path;
  XRFreader_read_xrf_txt := fun _ _ => outcome
|}.

Definition iron : Raw.Element :=
  Raw.mkElement (Some 0.5%float) None (Some "Ka1") None None None.

Definition nickel : Raw.Element :=
  Raw.mkElement (Some 0.25%float) (Some 0.125%float) (Some "Kb1")
                (Some 12%float) (Some 3%float) None.

Definition coating : Raw.Layer :=
  Raw.mkLayer (Some 50%float) (Some [("Fe", iron); ("Ni", nickel)]).

Definition substrate : Raw.Layer := Raw.mkLayer None None.

(** One complete entry, as in the specification's scenario B. *)
Definition meas1 : Raw.Entry :=
  Raw.mkEntry (Some "coating check") None (Some "S1")
              (Some [("L1", coating); ("L2", substrate)]).

(** A second entry on the same sample. *)
Definition meas2 : Raw.Entry :=
  Raw.mkEntry (Some "recheck") (Some "2024-05-01") (Some "S1") (Some []).

(** An entry with layers and no sample name. *)
Definition meas_unnamed : Raw.Entry :=
  Raw.mkEntry (Some "blank") None None (Some []).

(** An entry without the ['layers'] key. *)
Definition meas_no_layers : Raw.Entry :=
  Raw.mkEntry (Some "coating check") None (Some "S1") None.

Definition two_measurements : dict Raw.Entry :=
  [("meas1", meas1); ("meas2", meas2)].

Definition unnamed_measurement : dict Raw.Entry :=
  [("meas1", meas_unnamed)].

Definition measurement_without_layers : dict Raw.Entry :=
  [("meas1", meas_no_layers)].

Definition good_then_without_layers : dict Raw.Entry :=
  [("meas1", meas1); ("meas2", meas_no_layers)].

Definition blank_archive : EntryArchive.t := EntryArchive.mk None.



Definition record_with_file (data_file : string) : ELNXRayFluorescence.t :=
  ELNXRayFluorescence.mk None None [] [] (Some data_file) None.

Definition world_with_file (data_file : string) : World :=
  mkWorld (record_with_file data_file) blank_archive [].

Definition parser_failure : Exception :=
  mkException "ValueError" "could not convert string to float".

(* ================================================================== *)
(** * Properties *)
(* ================================================================== *)

(** Unfolds the primitives of [M] so that a method body computes. *)
Ltac run_world :=
  unfold bind, ret, lift, get_self, get_archive, set_self, set_archive, emit.

(** ** The Python layer *)

Lemma fold_append_map (A B : Type) (f : A -> B) (l : list A) (acc : list B) :
  fold_left (fun acc x => acc ++ [f x]) l acc = acc ++ map f l.
Proof.
  revert acc. induction l as [|x l IH]; intros acc; simpl.
  - now rewrite app_nil_r.
  - rewrite IH, <- app_assoc. reflexivity.
Qed.

(** A loop that appends one built value per item builds the [map]. *)
Lemma append_each_map (A B : Type) (f : A -> B) (l : list A) :
  append_each f l = map f l.
Proof. unfold append_each. now rewrite fold_append_map. Qed.

Lemma string_length_append (p s : string) :
  String.length (p ++ s)%string = String.length p + String.length s.
Proof. induction p as [|c p IH]; simpl; [reflexivity | now rewrite IH]. Qed.

Lemma substring_whole (s : string) : substring 0 (String.length s) s = s.
Proof. induction s as [|c s IH]; simpl; [reflexivity | now rewrite IH]. Qed.

Lemma substring_past_prefix (p s : string) (n : nat) :
  substring (String.length p) n (p ++ s)%string = substring 0 n s.
Proof. induction p as [|c p IH]; simpl; [reflexivity | exact IH]. Qed.

(** A string is its first [n] characters followed by the rest. *)
Lemma substring_split (s : string) (n : nat) :
  n <= String.length s ->
  s = (substring 0 n s ++ substring n (String.length s - n) s)%string.
Proof.
  revert n. induction s as [|c s IH]; intros n Hn; simpl in *.
  - assert (n = 0) by lia. subst. reflexivity.
  - destruct n as [|n]; simpl.
    + now rewrite substring_whole.
    + f_equal. apply IH. lia.
Qed.

(** [endswith] holds exactly of the strings that are some stem followed by
    the suffix. *)
Lemma endswith_spec (s suffix : string) :
  endswith s suffix = true <-> exists stem, s = (stem ++ suffix)%string.
Proof.
  unfold endswith. rewrite andb_true_iff, Nat.leb_le, String.eqb_eq. split.
  - intros [Hlen Hsub].
    exists (substring 0 (String.length s - String.length suffix) s).
    assert (Hle : String.length s - String.length suffix <= String.length s)
      by lia.
    rewrite (substring_split s _ Hle) at 1.
    f_equal.
    replace (String.length s - (String.length s - String.length suffix))
      with (String.length suffix) by lia.
    exact Hsub.
  - intros [stem ->]. rewrite string_length_append. split; [lia|].
    replace (String.length stem + String.length suffix - String.length suffix)
      with (String.length stem) by lia.
    rewrite substring_past_prefix. apply substring_whole.
Qed.

(** ** Reader selection *)

(** C5: for a record whose [data_file] is set, [get_read_function] returns
    the text reader exactly when the file name ends with [.txt], that is,
    is some stem followed by [.txt]; for every other name it returns
    [None], and it does not raise. *)
Theorem get_read_function_txt_only
        (self : ELNXRayFluorescence.t) (data_file : string) :
  ELNXRayFluorescence.data_file self = Some data_file ->
  (get_read_function self = Ok (Some read_xrf_txt)
   <-> exists stem, data_file = (stem ++ ".txt")%string)
  /\ (get_read_function self = Ok None
      <-> ~ exists stem, data_file = (stem ++ ".txt")%string).
Proof.
  intros Hfile. unfold get_read_function. rewrite Hfile.
  rewrite <- endswith_spec.
  destruct (endswith data_file ".txt"); split; split;
    intros; try reflexivity; try discriminate; try congruence.
Qed.

Lemma get_read_function_txt_only_witness :
  (get_read_function (record_with_file "run.txt") = Ok (Some read_xrf_txt)
   <-> exists stem, "run.txt" = (stem ++ ".txt")%string)
  /\ (get_read_function (record_with_file "run.txt") = Ok None
      <-> ~ exists stem, "run.txt" = (stem ++ ".txt")%string).
Proof.
  apply (get_read_function_txt_only (record_with_file "run.txt") "run.txt").
  reflexivity.
Defined.

Example get_read_function_csv :
  get_read_function (record_with_file "run.csv") = Ok None.
Proof. reflexivity. Qed.

Example get_read_function_short_name :
  get_read_function (record_with_file "txt") = Ok None.
Proof. reflexivity. Qed.

Example get_read_function_bare_suffix :
  get_read_function (record_with_file ".txt") = Ok (Some read_xrf_txt).
Proof. reflexivity. Qed.

(** ** The entity builder *)

Section Builder.

Context {H : Host}.
Variable archive : EntryArchive.t.
Variable logger : option BoundLogger.

Lemma build_layers_present (data : Raw.Entry) (layers : dict Raw.Layer) :
  Raw.layers data = Some layers ->
  build_layers data = Ok (map build_layer layers).
Proof.
  intros Hl. unfold build_layers. rewrite Hl. simpl.
  now rewrite append_each_map.
Qed.

Lemma build_layers_absent (data : Raw.Entry) :
  Raw.layers data = None -> build_layers data = Raise list_has_no_items.
Proof. intros Hl. unfold build_layers. now rewrite Hl. Qed.

Lemma write_step_present rs ss (data : Raw.Entry) :
  has_layers data = true ->
  write_step archive logger (rs, ss) data
  = Ok (rs ++ [result_of archive logger data],
        add_sample archive logger ss data).
Proof.
  unfold has_layers. destruct (Raw.layers data) as [layers|] eqn:Hl;
    [intros _ | discriminate].
  unfold write_step, result_of, add_sample.
  rewrite (build_layers_present _ _ Hl), Hl. reflexivity.
Qed.

Lemma write_step_absent state (data : Raw.Entry) :
  has_layers data = false ->
  write_step archive logger state data = Raise list_has_no_items.
Proof.
  unfold has_layers. destruct (Raw.layers data) eqn:Hl;
    [discriminate | intros _].
  destruct state as [rs ss]. unfold write_step.
  now rewrite (build_layers_absent _ Hl).
Qed.

(** With layers on every entry the loop runs to its end: one result per
    value, appended in iteration order, and the samples folded in. *)
Lemma for_each_write_step_ok (entries : list Raw.Entry) rs ss :
  forallb has_layers entries = true ->
  for_each (write_step archive logger) entries (rs, ss)
  = Ok (rs ++ map (result_of archive logger) entries,
        fold_left (add_sample archive logger) entries ss).
Proof.
  revert rs ss. induction entries as [|data entries IH]; intros rs ss Hall.
  - simpl. now rewrite app_nil_r.
  - simpl in Hall. apply andb_true_iff in Hall as [Hd Hrest].
    cbn [for_each]. rewrite (write_step_present _ _ _ Hd).
    cbn [result_bind]. rewrite (IH _ _ Hrest), <- app_assoc. reflexivity.
Qed.

(** An entry without layers anywhere in the mapping ends the loop with
    the [AttributeError] of [[].items()]. *)
Lemma for_each_write_step_raise (entries : list Raw.Entry) state :
  forallb has_layers entries = false ->
  for_each (write_step archive logger) entries state = Raise list_has_no_items.
Proof.
  revert state. induction entries as [|data entries IH]; intros state Hall.
  - discriminate.
  - simpl in Hall. cbn [for_each]. destruct (has_layers data) eqn:Hd.
    + destruct state as [rs ss].
      rewrite (write_step_present _ _ _ Hd). cbn [result_bind]. now apply IH.
    + now rewrite (write_step_absent _ _ Hd).
Qed.

Lemma build_lists_ok (xrf_dict : dict Raw.Entry) :
  all_have_layers xrf_dict = true ->
  build_lists xrf_dict archive logger
  = Ok (map (result_of archive logger) (dict_values xrf_dict),
        fold_left (add_sample archive logger) (dict_values xrf_dict) []).
Proof.
  intros Hall. unfold build_lists.
  now rewrite (for_each_write_step_ok _ _ _ Hall).
Qed.

Lemma build_lists_raise (xrf_dict : dict Raw.Entry) :
  all_have_layers xrf_dict = false ->
  build_lists xrf_dict archive logger = Raise list_has_no_items.
Proof. intros Hall. unfold build_lists. now apply for_each_write_step_raise. Qed.

(** With layers on every entry the builder makes exactly one result per
    entry, in the iteration order of the mapping. *)
Lemma build_lists_results (xrf_dict : dict Raw.Entry) :
  all_have_layers xrf_dict = true ->
  exists rs ss,
    build_lists xrf_dict archive logger = Ok (rs, ss)
    /\ rs = map (result_of archive logger) (dict_values xrf_dict)
    /\ List.length rs = List.length xrf_dict.
Proof.
  intros Hall. rewrite (build_lists_ok _ Hall).
  eexists. eexists. split; [reflexivity|]. split; [reflexivity|].
  unfold dict_values. now rewrite !length_map.
Qed.

End Builder.

(** ** Sample references *)

(** A newly built reference is equal to none of the references of the
    list, so the membership test of line 309 never finds it. *)
Lemma new_sample_not_in (live : list CompositeSystemReference.t)
      (lab_id : option string) :
  py_in CompositeSystemReference.eqb
        (CompositeSystemReference.new live lab_id) live
  = false.
Proof.
  unfold py_in. apply not_true_is_false. intros Hin.
  apply existsb_exists in Hin as [y [Hy Heq]].
  unfold CompositeSystemReference.eqb, CompositeSystemReference.new,
    CompositeSystemReference.fresh in Heq. cbn in Heq.
  apply Nat.eqb_eq in Heq.
  assert (Hle : CompositeSystemReference.oid y
                <= list_max (map CompositeSystemReference.oid live)).
  { pose proof (proj1 (list_max_le (map CompositeSystemReference.oid live) _)
                  (le_n _)) as Hall.
    rewrite Forall_forall in Hall. apply Hall. now apply in_map. }
  lia.
Qed.

Section Samples.

Context {H : Host}.
Variable archive : EntryArchive.t.
Variable logger : option BoundLogger.

(** Every entry appends its reference. *)
Lemma add_sample_appends (ss : list CompositeSystemReference.t)
      (data : Raw.Entry) :
  add_sample archive logger ss data
  = ss ++ [CompositeSystemReference_normalize
             (CompositeSystemReference.new ss (Raw.sample_name data))
             archive logger].
Proof. unfold add_sample. now rewrite new_sample_not_in. Qed.

Lemma fold_add_sample_appends (entries : list Raw.Entry)
      (ss : list CompositeSystemReference.t) :
  List.length (fold_left (add_sample archive logger) entries ss)
  = List.length ss + List.length entries.
Proof.
  revert ss. induction entries as [|data entries IH]; intros ss; simpl.
  - lia.
  - rewrite IH, add_sample_appends, last_length. lia.
Qed.

(** With layers on every entry there is one sample reference per entry,
    whatever the sample names are. *)
Lemma one_sample_per_entry (xrf_dict : dict Raw.Entry) :
  all_have_layers xrf_dict = true ->
  exists rs ss,
    build_lists xrf_dict archive logger = Ok (rs, ss)
    /\ List.length ss = List.length xrf_dict.
Proof.
  intros Hall. rewrite (build_lists_ok archive logger xrf_dict Hall).
  eexists. eexists. split; [reflexivity|].
  rewrite fold_add_sample_appends. unfold dict_values.
  now rewrite length_map.
Qed.

End Samples.

(** C2, where the code departs from it: of two entries with the same
    [sample_name] the builder emits two sample references, not one,
    because the reference built for the second entry is a new object and
    the membership test of line 309 compares objects, not identifiers. *)
Theorem sample_references_not_deduplicated
        (H : Host) (archive : EntryArchive.t) (logger : option BoundLogger) :
  sample_names two_measurements = [Some "S1"; Some "S1"]
  /\ count_distinct (sample_names two_measurements) = 1
  /\ exists rs ss,
       build_lists two_measurements archive logger = Ok (rs, ss)
       /\ List.length ss = 2.
Proof.
  split; [reflexivity|]. split; [reflexivity|].
  apply (one_sample_per_entry archive logger two_measurements). reflexivity.
Qed.

Example scenario_C_two_references :
  option_map (fun lists => map CompositeSystemReference.lab_id (snd lists))
    (match build_lists (H := fixed_host (Ok None)) two_measurements
                       blank_archive None with
     | Ok lists => Some lists
     | Raise _ => None
     end)
  = Some [Some "S1"; Some "S1"].
Proof. reflexivity. Qed.

(** An entry without [sample_name] yields a reference as well, with the
    identifier unset. *)
Example unnamed_entry_yields_reference :
  option_map (fun lists => map CompositeSystemReference.lab_id (snd lists))
    (match build_lists (H := fixed_host (Ok None)) unnamed_measurement
                       blank_archive None with
     | Ok lists => Some lists
     | Raise _ => None
     end)
  = Some [None].
Proof. reflexivity. Qed.

(** ** Layers and elements *)






Example scenario_B_layers :
  build_layers meas1
  = Ok [XRFLayer.new (Some "L1") (Some 50%float)
          [XRFElementalComposition.new (Some "Fe") (Some 0.5%float) None
             (Some "Ka1") None None None;
           XRFElementalComposition.new (Some "Ni") (Some 0.25%float)
             (Some 0.125%float) (Some "Kb1") (Some 12%float) (Some 3%float)
             None];
        XRFLayer.new (Some "L2") None []].
Proof. reflexivity. Qed.

(** ** The merge *)















(** ** [write_xrf_data] *)

Section Write.

Context {H : Host}.
Variable logger : option BoundLogger.

(** With layers on every entry the call returns, and the record is the
    merge of the record with the derived one. *)
Lemma write_xrf_data_ok (xrf_dict : dict Raw.Entry) (w : World) :
  all_have_layers xrf_dict = true ->
  write_xrf_data xrf_dict logger w
  = (Ok tt,
     mkWorld
       (merge_sections (self w)
          (derived_record
             (map (result_of (archive w) logger) (dict_values xrf_dict),
              fold_left (add_sample (archive w) logger)
                        (dict_values xrf_dict) [])
             (archive w) logger))
       (archive w) (trace w)).
Proof.
  intros Hall. unfold write_xrf_data. run_world.
  now rewrite (build_lists_ok (archive w) logger xrf_dict Hall).
Qed.

(** With an entry that lacks its layers the call raises and leaves the
    world as it found it. *)
Lemma write_xrf_data_raise (xrf_dict : dict Raw.Entry) (w : World) :
  all_have_layers xrf_dict = false ->
  write_xrf_data xrf_dict logger w = (Raise list_has_no_items, w).
Proof.
  intros Hall. unfold write_xrf_data. run_world.
  now rewrite (build_lists_raise (archive w) logger xrf_dict Hall).
Qed.

(** With layers on every entry the derived record carries one settings
    section, the normalized [XRFSettings()], whatever the mapping holds. *)
Lemma derived_record_settings
      (lists : list XRFResult.t * list CompositeSystemReference.t)
      (archive : EntryArchive.t) :
  ELNXRayFluorescence.xrf_settings (derived_record lists archive logger)
  = Some (XRFSettings_normalize XRFSettings.new archive logger).
Proof. destruct lists. reflexivity. Qed.

Lemma derived_record_data_file
      (lists : list XRFResult.t * list CompositeSystemReference.t)
      (archive : EntryArchive.t) :
  ELNXRayFluorescence.data_file (derived_record lists archive logger) = None.
Proof. destruct lists. reflexivity. Qed.

End Write.

(** C10: a call of [write_xrf_data] on a record whose [data_file] is set
    leaves [data_file] as it was, whether the call returns or raises: the
    derived record never sets [data_file], and the merge keeps the value of
    the current record. *)
Theorem write_xrf_data_keeps_data_file
        (H : Host) (xrf_dict : dict Raw.Entry) (logger : option BoundLogger)
        (w : World) (data_file : string) :
  ELNXRayFluorescence.data_file (self w) = Some data_file ->
  ELNXRayFluorescence.data_file (self (snd (write_xrf_data xrf_dict logger w)))
  = Some data_file
  /\ forall lists archive,
       ELNXRayFluorescence.data_file (derived_record lists archive logger)
       = None.
Proof.
  intros Hfile. split; [|intros; apply derived_record_data_file].
  destruct (all_have_layers xrf_dict) eqn:Hall.
  - rewrite (write_xrf_data_ok logger xrf_dict w Hall). cbn [snd self].
    unfold merge_sections. cbn. now rewrite Hfile.
  - now rewrite (write_xrf_data_raise logger xrf_dict w Hall).
Qed.

Lemma write_xrf_data_keeps_data_file_witness :
  ELNXRayFluorescence.data_file
    (self (snd (write_xrf_data (H := fixed_host (Ok None)) two_measurements None
                               (world_with_file "run.txt"))))
  = Some "run.txt"
  /\ forall lists archive,
       ELNXRayFluorescence.data_file
         (derived_record (H := fixed_host (Ok None)) lists archive None)
       = None.
Proof.
  apply (write_xrf_data_keeps_data_file
           (fixed_host (Ok None)) two_measurements None
           (world_with_file "run.txt") "run.txt").
  reflexivity.
Defined.

(** [write_xrf_data] returns exactly for the mappings whose entries all
    carry their layers; every other missing key is read as unset. *)
Lemma build_lists_returns_iff
      (H : Host) (xrf_dict : dict Raw.Entry) (archive : EntryArchive.t)
      (logger : option BoundLogger) :
  (exists lists, build_lists xrf_dict archive logger = Ok lists)
  <-> all_have_layers xrf_dict = true.
Proof.
  split.
  - intros [lists Hok]. destruct (all_have_layers xrf_dict) eqn:Hall;
      [reflexivity|].
    rewrite (build_lists_raise archive logger xrf_dict Hall) in Hok.
    discriminate.
  - intros Hall. rewrite (build_lists_ok archive logger xrf_dict Hall).
    eexists. reflexivity.
Qed.

(** C3, where the code departs from it: an entry without the ['layers']
    key makes [write_xrf_data] raise [AttributeError], whatever the other
    keys and the later entries are, and the world stays as it was. *)
Theorem write_xrf_data_raises_without_layers
        (H : Host) (logger : option BoundLogger) (w : World)
        (key : string) (application : option string) (date : option Datetime)
        (sample_name : option string) (rest : dict Raw.Entry) :
  write_xrf_data
    ((key, Raw.mkEntry application date sample_name None) :: rest) logger w
  = (Raise (AttributeError "'list' object has no attribute 'items'"), w).
Proof. apply write_xrf_data_raise. reflexivity. Qed.

(** The other missing keys raise nothing: an entry with nothing but an
    empty layer yields a result and a sample reference with every field
    unset. *)
Example write_xrf_data_other_keys_missing :
  build_lists (H := fixed_host (Ok None))
    [("meas1", Raw.mkEntry None None None
                 (Some [("L1", Raw.mkLayer None None);
                        ("L2", Raw.mkLayer None
                                 (Some [("Fe", Raw.mkElement None None None
                                                 None None None)]))]))]
    blank_archive None
  = Ok ([XRFResult.new None None
           [XRFLayer.new (Some "L1") None [];
            XRFLayer.new (Some "L2") None
              [XRFElementalComposition.new (Some "Fe") None None None None
                 None None]]],
        [CompositeSystemReference.mk 1 None None None]).
Proof. reflexivity. Qed.

(** C1, where the code departs from it: of a mapping with two entries,
    the second without ['layers'], the builder returns no result list at
    all, and [write_xrf_data] attaches no result to the record. *)
Theorem no_results_without_layers (H : Host) (logger : option BoundLogger) :
  List.length good_then_without_layers = 2
  /\ build_lists good_then_without_layers blank_archive logger
     = Raise list_has_no_items
  /\ ELNXRayFluorescence.results
       (self (snd (write_xrf_data good_then_without_layers logger
                     (mkWorld ELNXRayFluorescence.empty blank_archive []))))
     = [].
Proof.
  split; [reflexivity|]. split.
  - apply build_lists_raise. reflexivity.
  - rewrite write_xrf_data_raise; reflexivity.
Qed.

(** C8, where the code departs from it: on a mapping whose entry lacks
    ['layers'] the call raises before [XRFSettings()] is reached, and the
    record is left without settings. *)
Theorem no_settings_without_layers (H : Host) (logger : option BoundLogger) :
  write_xrf_data measurement_without_layers logger
    (mkWorld ELNXRayFluorescence.empty blank_archive [])
  = (Raise list_has_no_items,
     mkWorld ELNXRayFluorescence.empty blank_archive [])
  /\ ELNXRayFluorescence.xrf_settings
       (self (snd (write_xrf_data measurement_without_layers logger
                     (mkWorld ELNXRayFluorescence.empty blank_archive []))))
     = None.
Proof.
  rewrite write_xrf_data_raise by reflexivity. split; reflexivity.
Qed.

(** On a run that reaches its end, the record that had no settings gets
    the one [XRFSettings()] the call made, with no quantity set before the
    hook of the framework sees it. *)
Lemma write_xrf_data_attaches_empty_settings
      (H : Host) (logger : option BoundLogger) (xrf_dict : dict Raw.Entry)
      (w : World) :
  all_have_layers xrf_dict = true ->
  ELNXRayFluorescence.xrf_settings (self w) = None ->
  ELNXRayFluorescence.xrf_settings
    (self (snd (write_xrf_data xrf_dict logger w)))
  = Some (XRFSettings_normalize
            (XRFSettings.mk None None None None None) (archive w) logger).
Proof.
  intros Hall Hnone. rewrite (write_xrf_data_ok logger xrf_dict w Hall).
  cbn [snd self]. unfold merge_sections. cbn. now rewrite Hnone.
Qed.

(** On a run that reaches its end, a record without results gets one
    result per entry, in iteration order. *)
Lemma write_xrf_data_attaches_results
      (H : Host) (logger : option BoundLogger) (xrf_dict : dict Raw.Entry)
      (w : World) :
  all_have_layers xrf_dict = true ->
  ELNXRayFluorescence.results (self w) = [] ->
  ELNXRayFluorescence.results (self (snd (write_xrf_data xrf_dict logger w)))
  = map (result_of (archive w) logger) (dict_values xrf_dict).
Proof.
  intros Hall Hnone. rewrite (write_xrf_data_ok logger xrf_dict w Hall).
  cbn [snd self]. unfold merge_sections. cbn. now rewrite Hnone.
Qed.

(** ** [normalize] *)

Section Normalize.

Context {H : Host}.
Variable logger : option BoundLogger.

(** [XRayFluorescence.normalize] returns, and it calls the superclass. *)
Lemma XRayFluorescence_normalize_returns (w : World) :
  exists self' archive',
    XRayFluorescence_normalize logger w
    = (Ok tt, mkWorld self' archive' (trace w ++ [MeasurementNormalize])).
Proof.
  unfold XRayFluorescence_normalize. run_world.
  destruct w as [s [[[[p|]]|]] t]; cbn;
    match goal with
    | |- context [Measurement_normalize ?s ?a ?l] =>
        destruct (Measurement_normalize s a l) as [s' a']
    end; cbn; eexists; eexists; reflexivity.
Qed.

(** The superclass is handed an archive whose [results] and
    [results.properties] are there. *)
Lemma XRayFluorescence_normalize_blank_archive (s : ELNXRayFluorescence.t)
      (t : list Event) :
  XRayFluorescence_normalize logger (mkWorld s blank_archive t)
  = (Ok tt,
     let (s', a') :=
       Measurement_normalize s
         (EntryArchive.mk (Some (Results.mk (Some Properties.new)))) logger in
     mkWorld s' a' (t ++ [MeasurementNormalize])).
Proof.
  unfold XRayFluorescence_normalize. run_world. cbn.
  destruct (Measurement_normalize _ _ _). reflexivity.
Qed.

Lemma warn_if_logger_events (msg : string) (w : World) :
  warn_if_logger logger msg w = (Ok tt, add_events w (warning_events logger msg)).
Proof.
  unfold warn_if_logger, warning_events, add_events, emit, ret.
  destruct logger; [reflexivity|]. rewrite app_nil_r. now destruct w.
Qed.

(** The last statement of [normalize] changes nothing. *)
Lemma normalize_tail (m : M unit) (w : World) :
  (forall w0, exists w1, m w0 = (Ok tt, w1)) ->
  (m ;;; self <- get_self ;;
         match ELNXRayFluorescence.results self with
         | [] => ret tt
         | _ :: _ => ret tt
         end) w
  = m w.
Proof.
  intros Hm. unfold bind, get_self, ret. destruct (Hm w) as [w1 ->].
  now destruct (ELNXRayFluorescence.results (self w1)).
Qed.

Lemma baseline_total (w0 : World) :
  exists w1, XRayFluorescence_normalize logger w0 = (Ok tt, w1).
Proof.
  destruct (XRayFluorescence_normalize_returns w0) as [s' [a' ->]].
  eexists. reflexivity.
Qed.

(** No reader for the suffix: a warning if there is a logger, then the
    baseline normalization. *)
Lemma normalize_no_reader (w : World) (data_file : string) :
  ELNXRayFluorescence.data_file (self w) = Some data_file ->
  get_read_function (self w) = Ok None ->
  normalize logger w
  = XRayFluorescence_normalize logger
      (add_events w (warning_events logger (no_reader_message data_file))).
Proof.
  intros Hfile Hread. unfold normalize.
  unfold bind at 1. unfold get_self at 1. cbn [self]. rewrite Hfile.
  unfold bind at 1. unfold bind at 1. unfold lift. rewrite Hread.
  rewrite warn_if_logger_events.
  exact (normalize_tail (XRayFluorescence_normalize logger) _ baseline_total).
Qed.

Lemma with_raw_file_reader (w : World) (data_file : string)
      (read_function : Callable) :
  with_raw_file data_file
    (fun name => lift (call_reader read_function name logger)) w
  = (call_reader read_function (raw_file_name (archive w) data_file) logger,
     add_events w [RawFileEnter data_file; RawFileExit data_file]).
Proof.
  unfold with_raw_file, emit, lift, add_events. cbn.
  now rewrite <- app_assoc.
Qed.

(** A reader that returns nothing: the file is opened and released, a
    warning if there is a logger, then the baseline normalization. *)
Lemma normalize_no_data (w : World) (data_file : string)
      (read_function : Callable) (xrf_dict : option (dict Raw.Entry)) :
  ELNXRayFluorescence.data_file (self w) = Some data_file ->
  get_read_function (self w) = Ok (Some read_function) ->
  call_reader read_function (raw_file_name (archive w) data_file) logger
  = Ok xrf_dict ->
  truthy xrf_dict = false ->
  normalize logger w
  = XRayFluorescence_normalize logger
      (add_events w
         ([RawFileEnter data_file; RawFileExit data_file]
            ++ warning_events logger (no_data_message data_file))).
Proof.
  intros Hfile Hread Hcall Hfalsy. unfold normalize.
  unfold bind at 1. unfold get_self at 1. cbn [self]. rewrite Hfile.
  unfold bind at 1. unfold bind at 1. unfold lift at 1. rewrite Hread.
  unfold bind at 1. rewrite with_raw_file_reader, Hcall, Hfalsy.
  rewrite warn_if_logger_events.
  replace (add_events (add_events w [RawFileEnter data_file; RawFileExit data_file])
             (warning_events logger (no_data_message data_file)))
    with (add_events w
            ([RawFileEnter data_file; RawFileExit data_file]
               ++ warning_events logger (no_data_message data_file)))
    by (unfold add_events; cbn; now rewrite <- app_assoc).
  exact (normalize_tail (XRayFluorescence_normalize logger) _ baseline_total).
Qed.

(** A reader that raises: the file is released and the exception leaves
    [normalize] as it is. *)
Lemma normalize_reader_raises (w : World) (data_file : string)
      (read_function : Callable) (e : Exception) :
  ELNXRayFluorescence.data_file (self w) = Some data_file ->
  get_read_function (self w) = Ok (Some read_function) ->
  call_reader read_function (raw_file_name (archive w) data_file) logger
  = Raise e ->
  normalize logger w
  = (Raise e, add_events w [RawFileEnter data_file; RawFileExit data_file]).
Proof.
  intros Hfile Hread Hcall. unfold normalize.
  unfold bind at 1. unfold get_self at 1. cbn [self]. rewrite Hfile.
  unfold bind at 1. unfold bind at 1. unfold lift at 1. rewrite Hread.
  unfold bind at 1. rewrite with_raw_file_reader, Hcall. reflexivity.
Qed.

End Normalize.

Lemma unparsed_events_no_reader (s : ELNXRayFluorescence.t) (data_file : string)
      (logger : option BoundLogger) :
  get_read_function s = Ok None ->
  unparsed_events s data_file logger
  = warning_events logger (no_reader_message data_file).
Proof. intros Hread. unfold unparsed_events. now rewrite Hread. Qed.

Lemma unparsed_events_no_data (s : ELNXRayFluorescence.t) (data_file : string)
      (logger : option BoundLogger) (read_function : Callable) :
  get_read_function s = Ok (Some read_function) ->
  unparsed_events s data_file logger
  = [RawFileEnter data_file; RawFileExit data_file]
      ++ warning_events logger (no_data_message data_file).
Proof. intros Hread. unfold unparsed_events. now rewrite Hread. Qed.

Lemma has_warning_unparsed_events (s : ELNXRayFluorescence.t)
      (data_file : string) (logger : option BoundLogger) :
  has_warning (unparsed_events s data_file logger)
  = match logger with Some _ => true | None => false end.
Proof.
  unfold unparsed_events.
  destruct (get_read_function s) as [[r|]|e]; destruct logger; reflexivity.
Qed.

(** C6, as the code has it: when [data_file] is set and either no reader
    resolves for its suffix or the resolved reader returns an empty or
    falsy result, [normalize] raises no exception, leaves the record
    without parsed results (the baseline normalization receives the record
    and the archive as they were), runs the baseline normalization, and
    emits a warning through the logger if a logger was passed; with no
    logger the guarded call is skipped and no warning is emitted. *)
Theorem normalize_unparsed
        (H : Host) (logger : option BoundLogger) (w : World)
        (data_file : string) :
  ELNXRayFluorescence.data_file (self w) = Some data_file ->
  unparsed w data_file logger ->
  let events := unparsed_events (self w) data_file logger in
  let w' := add_events w events in
  normalize logger w = XRayFluorescence_normalize logger w'
  /\ fst (normalize logger w) = Ok tt
  /\ self w' = self w
  /\ archive w' = archive w
  /\ ran_baseline events = false
  /\ trace (snd (normalize logger w))
     = trace w ++ events ++ [MeasurementNormalize]
  /\ has_warning events = match logger with Some _ => true | None => false end.
Proof.
  intros Hfile Hun events w'.
  assert (Hrun : normalize logger w = XRayFluorescence_normalize logger w').
  { destruct Hun as [Hread | [rf [xrf_dict [Hread [Hcall Hfalsy]]]]].
    - rewrite (normalize_no_reader logger w data_file Hfile Hread).
      unfold w', events. now rewrite (unparsed_events_no_reader _ _ _ Hread).
    - rewrite (normalize_no_data logger w data_file rf xrf_dict
                 Hfile Hread Hcall Hfalsy).
      unfold w', events.
      now rewrite (unparsed_events_no_data _ _ _ rf Hread). }
  split; [exact Hrun|]. rewrite Hrun.
  destruct (XRayFluorescence_normalize_returns logger w') as [s' [a' ->]].
  cbn [fst snd trace]. split; [reflexivity|]. split; [reflexivity|].
  split; [reflexivity|]. split.
  - unfold events, unparsed_events.
    destruct (get_read_function (self w)) as [[r|]|e]; destruct logger;
      reflexivity.
  - split; [unfold w', add_events; cbn; now rewrite app_assoc|].
    apply has_warning_unparsed_events.
Qed.

Lemma normalize_unparsed_witness :
  let H := fixed_host (Ok (Some [])) in
  let logger := Some bound_logger in
  let w := world_with_file "run.txt" in
  let events := unparsed_events (self w) "run.txt" logger in
  let w' := add_events w events in
  normalize logger w = XRayFluorescence_normalize logger w'
  /\ fst (normalize logger w) = Ok tt
  /\ self w' = self w
  /\ archive w' = archive w
  /\ ran_baseline events = false
  /\ trace (snd (normalize logger w))
     = trace w ++ events ++ [MeasurementNormalize]
  /\ has_warning events = true.
Proof.
  apply (normalize_unparsed (fixed_host (Ok (Some []))) (Some bound_logger)
           (world_with_file "run.txt") "run.txt").
  - reflexivity.
  - right. exists read_xrf_txt, (Some []). repeat split.
Defined.

(** C6, as stated, fails: with no logger a record whose file has an
    unsupported suffix, and one whose reader returns an empty mapping, are
    normalized without any warning being emitted. *)
Lemma normalize_unparsed_without_logger_is_silent :
  let H := fixed_host (Ok (Some [])) in
  (ELNXRayFluorescence.data_file (self (world_with_file "run.csv"))
   = Some "run.csv"
   /\ unparsed (world_with_file "run.csv") "run.csv" None
   /\ fst (normalize None (world_with_file "run.csv")) = Ok tt
   /\ has_warning (trace (snd (normalize None (world_with_file "run.csv"))))
      = false)
  /\ (ELNXRayFluorescence.data_file (self (world_with_file "run.txt"))
      = Some "run.txt"
      /\ unparsed (world_with_file "run.txt") "run.txt" None
      /\ fst (normalize None (world_with_file "run.txt")) = Ok tt
      /\ has_warning (trace (snd (normalize None (world_with_file "run.txt"))))
         = false).
Proof.
  cbv zeta. split.
  - split; [reflexivity|]. split; [left; reflexivity|]. split; reflexivity.
  - split; [reflexivity|]. split.
    + right. exists read_xrf_txt, (Some []). repeat split.
    + split; reflexivity.
Qed.

(** C9: when [data_file] is set, a reader resolves for its suffix and the
    reader raises, [normalize] raises that same exception; the record and
    the archive are as they were (no result is attached), the raw file has
    been released, and the baseline normalization has not run. *)
Theorem normalize_reader_exception_propagates
        (H : Host) (logger : option BoundLogger) (w : World)
        (data_file : string) (read_function : Callable) (e : Exception) :
  ELNXRayFluorescence.data_file (self w) = Some data_file ->
  get_read_function (self w) = Ok (Some read_function) ->
  call_reader read_function (raw_file_name (archive w) data_file) logger
  = Raise e ->
  fst (normalize logger w) = Raise e
  /\ self (snd (normalize logger w)) = self w
  /\ archive (snd (normalize logger w)) = archive w
  /\ trace (snd (normalize logger w))
     = trace w ++ [RawFileEnter data_file; RawFileExit data_file]
  /\ ran_baseline [RawFileEnter data_file; RawFileExit data_file] = false.
Proof.
  intros Hfile Hread Hcall.
  rewrite (normalize_reader_raises logger w data_file read_function e
             Hfile Hread Hcall).
  repeat split.
Qed.

Lemma normalize_reader_exception_propagates_witness :
  let H := fixed_host (Raise parser_failure) in
  let w := world_with_file "run.txt" in
  fst (normalize None w) = Raise parser_failure
  /\ self (snd (normalize None w)) = self w
  /\ archive (snd (normalize None w)) = archive w
  /\ trace (snd (normalize None w))
     = trace w ++ [RawFileEnter "run.txt"; RawFileExit "run.txt"]
  /\ ran_baseline [RawFileEnter "run.txt"; RawFileExit "run.txt"] = false.
Proof.
  apply (normalize_reader_exception_propagates
           (fixed_host (Raise parser_failure)) None
           (world_with_file "run.txt") "run.txt" read_xrf_txt parser_failure);
    reflexivity.
Defined.

(** ** Scenarios of the specification *)

Example scenario_A_empty_mapping :
  build_lists (H := fixed_host (Ok None)) [] blank_archive None = Ok ([], []).
Proof. reflexivity. Qed.

Example scenario_D_unsupported_suffix :
  normalize (H := fixed_host (Ok None)) (Some bound_logger)
            (world_with_file "run.csv")
  = (Ok tt,
     mkWorld (record_with_file "run.csv")
             (EntryArchive.mk (Some (Results.mk (Some Properties.new))))
             [LogWarn (no_reader_message "run.csv"); MeasurementNormalize]).
Proof. reflexivity. Qed.

Example scenario_E_empty_reader_result :
  normalize (H := fixed_host (Ok (Some []))) (Some bound_logger)
            (world_with_file "run.txt")
  = (Ok tt,
     mkWorld (record_with_file "run.txt")
             (EntryArchive.mk (Some (Results.mk (Some Properties.new))))
             [RawFileEnter "run.txt"; RawFileExit "run.txt";
              LogWarn (no_data_message "run.txt"); MeasurementNormalize]).
Proof. reflexivity. Qed.

Example parsed_record :
  ELNXRayFluorescence.results
    (self (snd (normalize (H := fixed_host (Ok (Some two_measurements)))
                          (Some bound_logger) (world_with_file "run.txt"))))
  = [XRFResult.new (Some "coating check") None
       [XRFLayer.new (Some "L1") (Some 50%float)
          (map build_element [("Fe", iron); ("Ni", nickel)]);
        XRFLayer.new (Some "L2") None []];
     XRFResult.new (Some "recheck") (Some "2024-05-01") []].
Proof. reflexivity. Qed.

(* ================================================================== *)
(** * Further properties of the methods *)
(* ================================================================== *)

(** ** The builder: results and errors *)

Lemma all_have_layers_false_iff (xrf_dict : dict Raw.Entry) :
  all_have_layers xrf_dict = false
  <-> exists key data, In (key, data) xrf_dict /\ Raw.layers data = None.
Proof.
  unfold all_have_layers, dict_values.
  induction xrf_dict as [|[k d] rest IH]; simpl.
  - split; [discriminate | intros [key [data [[] _]]]].
  - rewrite andb_false_iff, IH. unfold has_layers at 1. split.
    + intros [Hd | [key [data [Hin Hnone]]]].
      * exists k, d. split; [now left|]. now destruct (Raw.layers d).
      * exists key, data. split; [now right | assumption].
    + intros [key [data [[Heq | Hin] Hnone]]].
      * inversion Heq; subst. left. now rewrite Hnone.
      * right. exists key, data. now split.
Qed.

(** X2: if some entry of the mapping, at whatever position, has no
    ['layers'] key, [write_xrf_data] does not return: it raises, and the
    record is left as it was, with nothing of the entries before the
    faulty one attached. *)
Theorem write_xrf_data_fails_without_layers
        (H : Host) (xrf_dict : dict Raw.Entry) (logger : option BoundLogger)
        (w : World) :
  (exists key data, In (key, data) xrf_dict /\ Raw.layers data = None) ->
  (exists e, fst (write_xrf_data xrf_dict logger w) = Raise e)
  /\ self (snd (write_xrf_data xrf_dict logger w)) = self w.
Proof.
  intros Hmissing. apply all_have_layers_false_iff in Hmissing.
  rewrite (write_xrf_data_raise logger xrf_dict w Hmissing). cbn [fst snd].
  split; [eexists|]; reflexivity.
Qed.

Lemma write_xrf_data_fails_without_layers_witness :
  let H := fixed_host (Ok None) in
  let w := mkWorld ELNXRayFluorescence.empty blank_archive [] in
  (exists e, fst (write_xrf_data good_then_without_layers None w) = Raise e)
  /\ self (snd (write_xrf_data good_then_without_layers None w)) = self w.
Proof.
  apply (write_xrf_data_fails_without_layers (fixed_host (Ok None))
           good_then_without_layers None
           (mkWorld ELNXRayFluorescence.empty blank_archive [])).
  exists "meas2", meas_no_layers.
  split; [right; left; reflexivity | reflexivity].
Defined.

Section SampleCount.

Context {H : Host}.
Variable archive : EntryArchive.t.
Variable logger : option BoundLogger.

Lemma add_sample_length (ss : list CompositeSystemReference.t)
      (data : Raw.Entry) :
  List.length ss <= List.length (add_sample archive logger ss data)
  <= S (List.length ss).
Proof.
  unfold add_sample. destruct (negb _); [rewrite last_length|]; lia.
Qed.

Lemma fold_add_sample_length (entries : list Raw.Entry)
      (ss : list CompositeSystemReference.t) :
  List.length ss
  <= List.length (fold_left (add_sample archive logger) entries ss)
  <= List.length ss + List.length entries.
Proof.
  revert ss. induction entries as [|data entries IH]; intros ss; simpl.
  - lia.
  - pose proof (add_sample_length ss data).
    pose proof (IH (add_sample archive logger ss data)). lia.
Qed.

(** The first entry always yields a sample reference. *)
Lemma add_sample_first (data : Raw.Entry) :
  List.length (add_sample archive logger [] data) = 1.
Proof. reflexivity. Qed.

End SampleCount.

(** X4: on a mapping whose entries all carry their layers, the sample
    references never outnumber the results, and there is at least one as
    soon as there is one entry: the first entry always yields a reference,
    also without a [sample_name]. *)
Theorem samples_between_one_and_results
        (H : Host) (xrf_dict : dict Raw.Entry) (archive : EntryArchive.t)
        (logger : option BoundLogger) :
  all_have_layers xrf_dict = true ->
  exists rs ss,
    build_lists xrf_dict archive logger = Ok (rs, ss)
    /\ List.length ss <= List.length rs
    /\ List.length rs = List.length xrf_dict
    /\ (xrf_dict <> [] -> 1 <= List.length ss).
Proof.
  intros Hall. rewrite (build_lists_ok archive logger xrf_dict Hall).
  eexists. eexists. split; [reflexivity|].
  unfold dict_values. rewrite !length_map.
  pose proof (fold_add_sample_length archive logger (map snd xrf_dict) [])
    as Hlen.
  rewrite length_map in Hlen. simpl in Hlen.
  split; [lia|]. split; [reflexivity|].
  intros Hne. destruct xrf_dict as [|[k d] rest]; [congruence|]. simpl.
  pose proof (fold_add_sample_length archive logger (map snd rest)
                (add_sample archive logger [] d)) as Hrest.
  rewrite add_sample_first in Hrest. lia.
Qed.

Lemma samples_between_one_and_results_witness :
  exists rs ss,
    build_lists (H := fixed_host (Ok None)) two_measurements blank_archive None
    = Ok (rs, ss)
    /\ List.length ss <= List.length rs
    /\ List.length rs = List.length two_measurements
    /\ (two_measurements <> [] -> 1 <= List.length ss).
Proof.
  apply (samples_between_one_and_results (fixed_host (Ok None))
           two_measurements blank_archive None).
  reflexivity.
Defined.

(** X1: on a mapping whose entries all carry their layers, the builder
    returns as many results as the mapping has entries, and the i-th
    result is the [XRFResult] made of the application, the date and the
    built layers of the i-th entry, as its [normalize] hook leaves it. *)
Theorem one_result_per_entry
        (H : Host) (xrf_dict : dict Raw.Entry) (archive : EntryArchive.t)
        (logger : option BoundLogger) :
  all_have_layers xrf_dict = true ->
  exists rs ss,
    build_lists xrf_dict archive logger = Ok (rs, ss)
    /\ List.length rs = List.length xrf_dict
    /\ forall i key data,
         nth_error xrf_dict i = Some (key, data) ->
         exists built,
           build_layers data = Ok built
           /\ nth_error rs i
              = Some (XRFResult_normalize
                        (XRFResult.new (Raw.application data) (Raw.date data)
                                       built)
                        archive logger).
Proof.
  intros Hall. rewrite (build_lists_ok archive logger xrf_dict Hall).
  eexists. eexists. split; [reflexivity|].
  unfold dict_values. rewrite !length_map. split; [reflexivity|].
  intros i key data Hi.
  assert (Hd : has_layers data = true).
  { unfold all_have_layers, dict_values in Hall.
    rewrite forallb_forall in Hall. apply Hall.
    apply in_map_iff. exists (key, data). split; [reflexivity|].
    eapply nth_error_In; eassumption. }
  unfold has_layers in Hd.
  destruct (Raw.layers data) as [layers|] eqn:Hl; [|discriminate].
  exists (map build_layer layers). split.
  - now apply build_layers_present.
  - rewrite !nth_error_map, Hi. cbn [option_map snd].
    unfold result_of. now rewrite Hl.
Qed.

Lemma one_result_per_entry_witness :
  exists rs ss,
    build_lists (H := fixed_host (Ok None)) two_measurements blank_archive None
    = Ok (rs, ss)
    /\ List.length rs = List.length two_measurements
    /\ forall i key data,
         nth_error two_measurements i = Some (key, data) ->
         exists built,
           build_layers data = Ok built
           /\ nth_error rs i
              = Some (XRFResult.new (Raw.application data) (Raw.date data)
                                    built).
Proof.
  apply (one_result_per_entry (fixed_host (Ok None)) two_measurements
           blank_archive None).
  reflexivity.
Defined.

(** ** [XRayFluorescence.normalize] *)


(** ** [normalize]: the remaining paths *)

Section NormalizePaths.

Context {H : Host}.
Variable logger : option BoundLogger.

(** No data file: nothing is read, the baseline normalization runs. *)
Lemma normalize_no_file (w : World) :
  ELNXRayFluorescence.data_file (self w) = None ->
  normalize logger w = XRayFluorescence_normalize logger w.
Proof.
  intros Hfile. unfold normalize.
  unfold bind at 1. unfold get_self at 1. cbn [self]. rewrite Hfile.
  unfold bind at 1. unfold ret at 1.
  exact (normalize_tail (XRayFluorescence_normalize logger) _
           (baseline_total logger)).
Qed.

(** A reader that returns data: what [normalize] does after the file is
    released is [write_xrf_data] and, if that returns, the baseline. *)
Lemma normalize_with_data (w : World) (data_file : string)
      (read_function : Callable) (xrf_dict : dict Raw.Entry) :
  ELNXRayFluorescence.data_file (self w) = Some data_file ->
  get_read_function (self w) = Ok (Some read_function) ->
  call_reader read_function (raw_file_name (archive w) data_file) logger
  = Ok (Some xrf_dict) ->
  xrf_dict <> [] ->
  normalize logger w
  = match write_xrf_data xrf_dict logger
            (add_events w [RawFileEnter data_file; RawFileExit data_file]) with
    | (Ok _, w') => XRayFluorescence_normalize logger w'
    | (Raise e, w') => (Raise e, w')
    end.
Proof.
  intros Hfile Hread Hcall Hne. unfold normalize.
  unfold bind at 1. unfold get_self at 1. cbn [self]. rewrite Hfile.
  unfold bind at 1. unfold bind at 1. unfold lift at 1. rewrite Hread.
  unfold bind at 1. rewrite with_raw_file_reader, Hcall.
  destruct xrf_dict as [|entry rest]; [congruence|]. cbn [truthy get_or].
  destruct (write_xrf_data (entry :: rest) logger _) as [[[]|e] w'].
  - exact (normalize_tail (XRayFluorescence_normalize logger) _
             (baseline_total logger)).
  - reflexivity.
Qed.

End NormalizePaths.

Lemma add_events_eta (w : World) (events : list Event) :
  add_events w events = mkWorld (self w) (archive w) (trace w ++ events).
Proof. reflexivity. Qed.

(** Every path through [normalize]: the events of its parsing phase, and
    how it ends, by an exception with record and archive untouched or by
    the baseline normalization. *)
Lemma normalize_outcome (H : Host) (logger : option BoundLogger) (w : World) :
  exists events,
    opened events = released events
    /\ List.length (opened events) <= 1
    /\ (forall p, In p (opened events) ->
                  ELNXRayFluorescence.data_file (self w) = Some p)
    /\ baseline_calls events = 0
    /\ ((exists e, normalize logger w = (Raise e, add_events w events))
        \/ (exists self1,
              normalize logger w
              = XRayFluorescence_normalize logger
                  (mkWorld self1 (archive w) (trace w ++ events)))).
Proof.
  destruct (ELNXRayFluorescence.data_file (self w)) as [f|] eqn:Hfile.
  - assert (Hread : get_read_function (self w)
                    = if endswith f ".txt" then Ok (Some read_xrf_txt)
                      else Ok None)
      by (unfold get_read_function; now rewrite Hfile).
    destruct (endswith f ".txt").
    + destruct (call_reader read_xrf_txt (raw_file_name (archive w) f) logger)
        as [[[|entry rest]|]|e] eqn:Hcall.
      * exists ([RawFileEnter f; RawFileExit f]
                  ++ warning_events logger (no_data_message f)).
        rewrite (normalize_no_data logger w f read_xrf_txt (Some [])
                   Hfile Hread Hcall eq_refl).
        destruct logger; cbn; repeat split; try lia;
          try (intros p [<-|[]]; reflexivity);
          right; exists (self w); reflexivity.
      * exists [RawFileEnter f; RawFileExit f].
        assert (Hne : entry :: rest <> []) by discriminate.
        rewrite (normalize_with_data logger w f read_xrf_txt (entry :: rest)
                   Hfile Hread Hcall Hne).
        repeat split; try (simpl; lia);
          try (simpl; intros p [<-|[]]; reflexivity).
        destruct (all_have_layers (entry :: rest)) eqn:Hall.
        -- rewrite (write_xrf_data_ok logger (entry :: rest) _ Hall).
           right. eexists. reflexivity.
        -- rewrite (write_xrf_data_raise logger (entry :: rest) _ Hall).
           left. eexists. reflexivity.
      * exists ([RawFileEnter f; RawFileExit f]
                  ++ warning_events logger (no_data_message f)).
        rewrite (normalize_no_data logger w f read_xrf_txt None
                   Hfile Hread Hcall eq_refl).
        destruct logger; cbn; repeat split; try lia;
          try (intros p [<-|[]]; reflexivity);
          right; exists (self w); reflexivity.
      * exists [RawFileEnter f; RawFileExit f].
        rewrite (normalize_reader_raises logger w f read_xrf_txt e
                   Hfile Hread Hcall).
        cbn. repeat split; try lia; try (intros p [<-|[]]; reflexivity).
        left. eexists. reflexivity.
    + exists (warning_events logger (no_reader_message f)).
      rewrite (normalize_no_reader logger w f Hfile Hread).
      destruct logger; cbn; repeat split; try lia;
        try (intros p []);
        right; exists (self w); reflexivity.
  - exists []. rewrite (normalize_no_file logger w Hfile).
    cbn. repeat split; try lia; try (intros p []).
    right. exists (self w).
    rewrite app_nil_r. now destruct w.
Qed.

Lemma events_then_baseline (events : list Event) :
  opened (events ++ [MeasurementNormalize]) = opened events
  /\ released (events ++ [MeasurementNormalize]) = released events
  /\ baseline_calls (events ++ [MeasurementNormalize])
     = S (baseline_calls events).
Proof.
  unfold opened, released, baseline_calls.
  rewrite !flat_map_app, filter_app, length_app. simpl.
  rewrite !app_nil_r. repeat split. lia.
Qed.

(** X6: [normalize] calls the baseline normalization of the superclass
    exactly once when it returns, and not at all when it raises; when it
    raises, the record and the archive are as they were before the call. *)
Theorem normalize_baseline_iff_returns
        (H : Host) (logger : option BoundLogger) (w : World) :
  exists events,
    trace (snd (normalize logger w)) = trace w ++ events
    /\ (fst (normalize logger w) = Ok tt -> baseline_calls events = 1)
    /\ (forall e, fst (normalize logger w) = Raise e ->
                  baseline_calls events = 0
                  /\ self (snd (normalize logger w)) = self w
                  /\ archive (snd (normalize logger w)) = archive w).
Proof.
  destruct (normalize_outcome H logger w)
    as [events [_ [_ [_ [Hbase Hend]]]]].
  destruct Hend as [[e He] | [self1 Hrun]].
  - rewrite He. cbn [fst snd trace self archive add_events].
    exists events. split; [reflexivity|]. split; [discriminate|].
    intros e' _. split; [exact Hbase|]. split; reflexivity.
  - rewrite Hrun.
    destruct (XRayFluorescence_normalize_returns logger
                (mkWorld self1 (archive w) (trace w ++ events)))
      as [s' [a' ->]].
    cbn [fst snd trace]. exists (events ++ [MeasurementNormalize]).
    split; [now rewrite <- app_assoc|]. split.
    + intros _. destruct (events_then_baseline events) as [_ [_ ->]].
      now rewrite Hbase.
    + intros e' He'. discriminate.
Qed.


(** X9: on a record without [data_file], [normalize] is the baseline
    normalization and nothing else: no file is opened, nothing is logged,
    no exception is raised; the guard matters, for [get_read_function]
    itself raises [AttributeError] on such a record. *)
Theorem normalize_without_data_file
        (H : Host) (logger : option BoundLogger) (w : World) :
  ELNXRayFluorescence.data_file (self w) = None ->
  normalize logger w = XRayFluorescence_normalize logger w
  /\ fst (normalize logger w) = Ok tt
  /\ trace (snd (normalize logger w)) = trace w ++ [MeasurementNormalize]
  /\ get_read_function (self w)
     = Raise (AttributeError "'NoneType' object has no attribute 'endswith'").
Proof.
  intros Hfile. rewrite (normalize_no_file logger w Hfile).
  destruct (XRayFluorescence_normalize_returns logger w) as [s' [a' ->]].
  repeat split. unfold get_read_function. now rewrite Hfile.
Qed.

Lemma normalize_without_data_file_witness :
  let H := fixed_host (Ok None) in
  let w := mkWorld ELNXRayFluorescence.empty blank_archive [] in
  normalize None w = XRayFluorescence_normalize None w
  /\ fst (normalize None w) = Ok tt
  /\ trace (snd (normalize None w)) = trace w ++ [MeasurementNormalize]
  /\ get_read_function (self w)
     = Raise (AttributeError "'NoneType' object has no attribute 'endswith'").
Proof.
  apply (normalize_without_data_file (fixed_host (Ok None)) None
           (mkWorld ELNXRayFluorescence.empty blank_archive [])).
  reflexivity.
Defined.


